(** * SFTPServerBackup: a shallow embedding of the backup pipeline

    The script [SFTPServerBackup.py] fetches remote paths into a cache
    directory, packs them with 7-Zip, moves the archive into a destination
    directory and removes the cache.  This file embeds the module-level
    start-up code and the functions [cleanup], [get_filename],
    [run_command], [move_archive] and [main] as state-passing programs with
    Python exceptions, and proves properties of them. *)

From Stdlib Require Import ZArith String Ascii List Bool Lia.
From stdpp Require Import base option list gmap strings pretty.

Open Scope string_scope.
Open Scope Z_scope.

(** ** Strings and paths *)

Definition sep : ascii := "/"%char.

Definition startswith_sep (s : string) : bool :=
  match s with
  | String c _ => if decide (c = sep) then true else false
  | EmptyString => false
  end.

Fixpoint endswith_sep (s : string) : bool :=
  match s with
  | EmptyString => false
  | String c EmptyString => if decide (c = sep) then true else false
  | String _ r => endswith_sep r
  end.

Fixpoint has_sep (s : string) : bool :=
  match s with
  | EmptyString => false
  | String c r => if decide (c = sep) then true else has_sep r
  end.

(** [os.path.join] with two arguments, as [posixpath] computes it. *)
Definition os_path_join (a b : string) : string :=
  if startswith_sep b then b
  else if (if decide (a = EmptyString) then true else endswith_sep a) then a +:+ b
  else a +:+ "/" +:+ b.

(** [os.path.join(a, *p)]. *)
Definition os_path_join_all (a : string) (p : list string) : string :=
  fold_left os_path_join p a.

(** The last component of a remote path: the name under which
    [sftp.get([info], localpath='cache', ...)] stores [info] inside the
    existing local directory. *)
Fixpoint basename (p : string) : string :=
  match p with
  | EmptyString => EmptyString
  | String c r =>
      if has_sep r then basename r
      else if decide (c = sep) then r
      else p
  end.

Definition nl : string := String (ascii_of_nat 10) EmptyString.

(** The text [s] between double quotes, as the messages show paths. *)
Definition quoted (s : string) : string :=
  String (ascii_of_nat 34) (s +:+ String (ascii_of_nat 34) EmptyString).

(** Substring test, used to say that a message names a target. *)
Fixpoint prefix_of (p s : string) : bool :=
  match p, s with
  | EmptyString, _ => true
  | String a p', String b s' => if decide (a = b) then prefix_of p' s' else false
  | String _ _, EmptyString => false
  end.

Fixpoint contains (needle hay : string) : bool :=
  if prefix_of needle hay then true
  else match hay with
       | EmptyString => false
       | String _ r => contains needle r
       end.

(** ** Python values, exceptions and the clock *)

(** [retry_limit] holds either the integer default or the raw text of the
    [--retries] flag. *)
Inductive pyval :=
| PyInt (n : Z)
| PyStr (s : string).

(** [f'{v}'] *)
Definition py_format (v : pyval) : string :=
  match v with
  | PyInt n => pretty n
  | PyStr s => s
  end.

Inductive exception :=
| RecursionError
| FileExistsError
| FileNotFoundError
| JSONDecodeError
| KeyError (key : string)
| ValueError
| TypeError
| CalledProcessError
| SFTPNoSuchFile
| SFTPNoSuchPath
| gaierror (args : string)
| PermissionDenied (reason : string)
| OtherError (msg : string).

(** What a Python frame can raise.  [SystemExit] derives from
    [BaseException] only, so [except Exception] does not catch it; every
    other exception of the model is an [Exception]. *)
Inductive exn :=
| SystemExit (code : Z)
| Exc (e : exception).
Coercion Exc : exception >-> exn.

(** [f'{e}'] *)
Definition exn_str (e : exception) : string :=
  match e with
  | RecursionError => "maximum recursion depth exceeded"
  | FileExistsError => "File exists"
  | FileNotFoundError => "No such file or directory"
  | JSONDecodeError => "Expecting value"
  | KeyError k => "'" +:+ k +:+ "'"
  | ValueError => "invalid literal for int()"
  | TypeError => "'>=' not supported between instances of 'int' and 'str'"
  | CalledProcessError => "Command returned non-zero exit status"
  | SFTPNoSuchFile => "No such file"
  | SFTPNoSuchPath => "No such path"
  | gaierror a => a
  | PermissionDenied r => r
  | OtherError m => m
  end.

Record datetime := mkDatetime {
  year : nat; month : nat; day : nat;
  hour : nat; minute : nat; second : nat
}.

(** A zero-padded two-digit field ([%d], [%m], [%y], [%H], [%M]). *)
Definition two_digits (n : nat) : string :=
  pretty (n `mod` 100 / 10)%nat +:+ pretty (n `mod` 10)%nat.

(** [strftime('%d.%m.%y-%H%M')] *)
Definition strftime_minute (t : datetime) : string :=
  two_digits (day t) +:+ "." +:+ two_digits (month t) +:+ "." +:+
  two_digits (year t) +:+ "-" +:+ two_digits (hour t) +:+ two_digits (minute t).

(** ** Program state *)

Inductive level := INFO | WARNING | ERROR.

(** The two directories the pipeline writes to are kept as two stores, each
    keyed by the full path string the code computes with [os.path.join]:
    the cache directory ([None] when the directory does not exist) and the
    files of the destination directory.  The destination directory is taken
    to lie outside the cache directory.  [retry_counter] is the module
    global, [info] the loop variable of [main]; the remaining fields record
    what the run did: log records, calls of [cleanup], [sftp.get],
    [subprocess.run] and [shutil.move], and printed text. *)
Record State := mkState {
  cache : option (gmap string string);
  dest : gmap string string;
  retry_counter : Z;
  info : option string;
  log : list (level * string);
  cleanups : nat;
  sftp_gets : list string;
  commands : list (list string * string);
  moves : list (string * string);
  stdout : list string
}.

Definition set_cache (c : option (gmap string string)) (s : State) : State :=
  mkState c (dest s) (retry_counter s) (info s) (log s) (cleanups s)
          (sftp_gets s) (commands s) (moves s) (stdout s).
Definition set_dest (d : gmap string string) (s : State) : State :=
  mkState (cache s) d (retry_counter s) (info s) (log s) (cleanups s)
          (sftp_gets s) (commands s) (moves s) (stdout s).
Definition set_retry_counter (n : Z) (s : State) : State :=
  mkState (cache s) (dest s) n (info s) (log s) (cleanups s)
          (sftp_gets s) (commands s) (moves s) (stdout s).
Definition set_info (i : string) (s : State) : State :=
  mkState (cache s) (dest s) (retry_counter s) (Some i) (log s) (cleanups s)
          (sftp_gets s) (commands s) (moves s) (stdout s).
Definition add_log (l : level) (m : string) (s : State) : State :=
  mkState (cache s) (dest s) (retry_counter s) (info s) (log s ++ [(l, m)])
          (cleanups s) (sftp_gets s) (commands s) (moves s) (stdout s).
Definition add_cleanup (s : State) : State :=
  mkState (cache s) (dest s) (retry_counter s) (info s) (log s)
          (S (cleanups s)) (sftp_gets s) (commands s) (moves s) (stdout s).
Definition add_sftp_get (t : string) (s : State) : State :=
  mkState (cache s) (dest s) (retry_counter s) (info s) (log s) (cleanups s)
          (sftp_gets s ++ [t]) (commands s) (moves s) (stdout s).
Definition add_command (c : list string) (cwd : string) (s : State) : State :=
  mkState (cache s) (dest s) (retry_counter s) (info s) (log s) (cleanups s)
          (sftp_gets s) (commands s ++ [(c, cwd)]) (moves s) (stdout s).
Definition add_move (src dst : string) (s : State) : State :=
  mkState (cache s) (dest s) (retry_counter s) (info s) (log s) (cleanups s)
          (sftp_gets s) (commands s) (moves s ++ [(src, dst)]) (stdout s).
Definition add_stdout (m : string) (s : State) : State :=
  mkState (cache s) (dest s) (retry_counter s) (info s) (log s) (cleanups s)
          (sftp_gets s) (commands s) (moves s) (stdout s ++ [m]).

(** ** A state monad with Python exceptions *)

Inductive outcome (A : Type) :=
| Return (a : A)
| Raise (e : exn).
Arguments Return {A} a.
Arguments Raise {A} e.

Definition Py (A : Type) : Type := State → State * outcome A.

#[global] Instance Py_ret : MRet Py := λ A a s, (s, Return a).
#[global] Instance Py_bind : MBind Py := λ A B f m s,
  match m s with
  | (s', Return a) => f a s'
  | (s', Raise e) => (s', Raise e)
  end.

Definition raise {A} (e : exn) : Py A := λ s, (s, Raise e).
Definition get : Py State := λ s, (s, Return s).
Definition modify (f : State → State) : Py unit := λ s, (f s, Return tt).

(** [try: body  except ...: handler].  The handler answers [None] for an
    exception that no [except] clause matches, which then propagates. *)
Definition try_except {A} (body : Py A) (handler : exn → option (Py A)) : Py A :=
  λ s, match body s with
       | (s', Return a) => (s', Return a)
       | (s', Raise e) =>
           match handler e with
           | Some h => h s'
           | None => (s', Raise e)
           end
       end.

Definition logger_info (m : string) : Py unit := modify (add_log INFO m).
Definition logger_warning (m : string) : Py unit := modify (add_log WARNING m).
Definition logger_error (m : string) : Py unit := modify (add_log ERROR m).
Definition print (m : string) : Py unit := modify (add_stdout m).
Definition sys_exit {A} (code : Z) : Py A := raise (SystemExit code).

(** ** The environment of one run *)

(** What [open('config.json')] and [json.load] find.  A loaded object
    carries the three keys the script reads, each possibly absent; of
    [sftp_config] only the host and the port are ever looked at. *)
Inductive config_file :=
| ConfigMissing
| ConfigMalformed
| ConfigObject (name : option string) (sftp : option (string * string))
               (targets : option (list string)).

(** The answer of the server to one [sftp.get]. *)
Inductive fetched :=
| Fetched (bytes : string)
| FetchFails (e : exception).

(** Everything outside the script that a run depends on: the parsed
    command line, the configuration file, the answers of the SSH server,
    the exit statuses of the external commands, the clock, and the two
    directories as the run finds them. *)
Record World := mkWorld {
  w_cwd : string;
  w_script_dir : string;
  w_is_windows : bool;
  w_arg_dir : option string;
  w_arg_retries : option string;
  w_config : config_file;
  w_connect_error : option exception;
  w_session_error : option exception;
  w_sftp_get : string → fetched;
  w_returncode : list string → Z;
  w_archive_bytes : string;
  w_now : datetime;
  w_cache0 : option (gmap string string);
  w_dest0 : gmap string string
}.

(** The module-level names the functions read. *)
Record Globals := mkGlobals {
  cache_dir : string;
  retry_limit : pyval;
  archive_name : string;
  sftp_host : string;
  sftp_port : string;
  data : list string
}.

(** Truth value of an optional argparse string: [None] and [''] are false. *)
Definition truthy (a : option string) : bool :=
  match a with
  | Some s => if decide (s = EmptyString) then false else true
  | None => false
  end.

(** *** [int(str)] *)

Definition is_space (c : ascii) : bool :=
  let n := nat_of_ascii c in
  ((9 <=? n) && (n <=? 13) || (n =? 32))%nat.

Definition digit_of (c : ascii) : option Z :=
  let n := nat_of_ascii c in
  if ((48 <=? n) && (n <=? 57))%nat then Some (Z.of_nat n - 48) else None.

Fixpoint lstrip (s : string) : string :=
  match s with
  | String c r => if is_space c then lstrip r else s
  | EmptyString => EmptyString
  end.

Definition strip (s : string) : string :=
  String.rev (lstrip (String.rev (lstrip s))).

(** Decimal digits, with single underscores allowed between digits. *)
Fixpoint parse_digits (acc : Z) (after_digit : bool) (s : string) : option Z :=
  match s with
  | EmptyString => if after_digit then Some acc else None
  | String c r =>
      match digit_of c with
      | Some d => parse_digits (10 * acc + d) true r
      | None =>
          if decide (c = "_"%char) then
            if after_digit then parse_digits acc false r else None
          else None
      end
  end.

Definition py_int (s : string) : option Z :=
  match strip s with
  | String "+" r => parse_digits 0 false r
  | String "-" r => Z.opp <$> parse_digits 0 false r
  | t => parse_digits 0 false t
  end.

(** *** Start-up: lines 90 to 121 *)

Definition initial_state (W : World) : State :=
  mkState (w_cache0 W) (w_dest0 W) 0 None [] 0 [] [] [] [].

(** [os.makedirs(cache_dir, exist_ok=True)]: an existing directory keeps
    its entries. *)
Definition os_makedirs_exist_ok : Py unit :=
  modify (λ s, set_cache (Some (default ∅ (cache s))) s).

(** Lines 98 to 105.  The parsed integer is bound to [retry_limit_arg];
    [retry_limit] is assigned from [args.retries] itself. *)
Definition parse_retries (retries : option string) : Py pyval :=
  retry_limit_arg ←
    (if truthy retries then
       try_except
         (match py_int (default EmptyString retries) with
          | Some n => mret (Some n)
          | None => raise ValueError
          end)
         (λ e, match e with
               | Exc ValueError =>
                   Some (logger_error "--retries argument must be an integer" ;;
                         sys_exit 1)
               | _ => None
               end)
     else mret None) ;
  mret (if truthy retries then PyStr (default EmptyString retries) else PyInt 10).

(** Lines 108 to 113 *)
Definition load_config (c : config_file) : Py config_file :=
  try_except
    (match c with
     | ConfigMissing => raise FileNotFoundError
     | ConfigMalformed => raise JSONDecodeError
     | ConfigObject _ _ _ => mret c
     end)
    (λ e, match e with
          | Exc FileNotFoundError =>
              Some (logger_error "config.json file not found" ;; sys_exit 1)
          | _ => None
          end).

(** [config[key]] *)
Definition subscript {A} (key : string) (v : option A) : Py A :=
  match v with
  | Some a => mret a
  | None => raise (KeyError key)
  end.

(** Lines 115 to 121 *)
Definition extract_config (cdir : string) (limit : pyval) (c : config_file)
  : Py Globals :=
  try_except
    (match c with
     | ConfigObject name sftp targets =>
         archive_name ← subscript "archive_name" name ;
         sftp_config ← subscript "sftp_config" sftp ;
         data ← subscript "data" targets ;
         mret (mkGlobals cdir limit archive_name (sftp_config.1)
                         (sftp_config.2) data)
     | _ => raise TypeError
     end)
    (λ e, match e with
          | Exc (KeyError k) =>
              Some (logger_error
                      ("Could not extract data from config.json: ('" +:+ k +:+ "',)") ;;
                    sys_exit 1)
          | _ => None
          end).

Definition startup (W : World) : Py Globals :=
  let cache_dir := os_path_join (w_cwd W) "cache" in
  os_makedirs_exist_ok ;;
  retry_limit ← parse_retries (w_arg_retries W) ;
  modify (set_retry_counter 0) ;;
  config ← load_config (w_config W) ;
  extract_config cache_dir retry_limit config.

(** ** The functions of the script *)

Section Pipeline.
Context (W : World) (G : Globals).

(** [shutil.rmtree(cache_dir)] *)
Definition shutil_rmtree : Py unit := λ s,
  match cache s with
  | Some _ => (set_cache None s, Return tt)
  | None => (s, Raise (Exc FileNotFoundError))
  end.

(** Lines 123 to 129 *)
Definition cleanup (success : bool) : Py unit :=
  modify add_cleanup ;;
  logger_info "Clearing cache" ;;
  shutil_rmtree ;;
  if negb success then sys_exit 1 else mret tt.

(** Lines 131 to 135, as a function of what [datetime.now()] returns. *)
Definition get_filename (now : datetime) : string :=
  let timestamp := strftime_minute now in
  let name := archive_name G +:+ "-" +:+ timestamp in
  name.

(** [subprocess.run(command, check=True, cwd=cwd, ...)].  The working
    directory has to exist; a non-zero return code raises.  A successful
    [<7z> a -t7z <out> <inputs...>] leaves the archive [<out>] in the
    working directory. *)
Definition subprocess_run_check (command : list string) (cwd : string)
  : Py unit :=
  modify (add_command command cwd) ;;
  s ← get ;
  match cache s with
  | None => raise FileNotFoundError
  | Some c =>
      if decide (w_returncode W command = 0) then
        match command with
        | _ :: "a" :: "-t7z" :: out :: _ =>
            modify (set_cache
                      (Some (<[os_path_join cwd out := w_archive_bytes W]> c)))
        | _ => mret tt
        end
      else raise CalledProcessError
  end.

(** Lines 137 to 141 *)
Definition run_command (command : list string) : Py unit :=
  subprocess_run_check command (cache_dir G).

(** [shutil.move(src, dst)] for an archive in the cache directory and a
    path in the destination directory.  The move reports an occupied
    destination path with [FileExistsError], which is the outcome the
    handler on line 161 is written for, and leaves both directories as
    they were in that case. *)
Definition shutil_move (src dst : string) : Py unit := λ s,
  let s := add_move src dst s in
  match cache s ≫= (.!! src) with
  | None => (s, Raise (Exc FileNotFoundError))
  | Some bytes =>
      match dest s !! dst with
      | Some _ => (s, Raise (Exc FileExistsError))
      | None =>
          (set_dest (<[dst := bytes]> (dest s))
                    (set_cache (delete src <$> cache s) s), Return tt)
      end
  end.

(** [counter >= limit] for an [int] on the left. *)
Definition py_ge (counter : Z) (limit : pyval) : Py bool :=
  match limit with
  | PyInt n => mret (bool_decide (n ≤ counter))
  | PyStr _ => raise TypeError
  end.

(** Lines 143 to 164.  [depth] bounds the nesting of the recursive calls;
    [move_archive] below starts with a depth that is never used up. *)
Fixpoint move_archive_rec (depth : nat) (backup_dir filename : string)
         (retry : bool) : Py string :=
  final_filename ←
    (if retry then
       modify (λ s, set_retry_counter (retry_counter s + 1) s) ;;
       s ← get ;
       logger_warning
         ("Backup file already exists, adding numbered sufix to filename: "
            +:+ pretty (retry_counter s)) ;;
       exhausted ← py_ge (retry_counter s) (retry_limit G) ;
       (if exhausted : bool then
          logger_error ("Amount of numbered sufix limit reached: "
                          +:+ py_format (retry_limit G)) ;;
          cleanup false
        else mret tt) ;;
       mret (filename +:+ "(" +:+ pretty (retry_counter s) +:+ ")")
     else mret EmptyString) ;
  let final_filename :=
    if negb retry then filename +:+ ".7z" else final_filename +:+ ".7z" in
  let filepath := os_path_join backup_dir final_filename in
  try_except
    (shutil_move (os_path_join (cache_dir G) (filename +:+ ".7z")) filepath)
    (λ e, match e with
          | Exc FileExistsError =>
              Some (match depth with
                    | S d => move_archive_rec d backup_dir filename true ;;
                             mret tt
                    | O => raise RecursionError
                    end)
          | _ => None
          end) ;;
  mret filepath.

(** Nesting the retries can need: one call per suffix up to the limit. *)
Definition retry_depth (s : State) : nat :=
  match retry_limit G with
  | PyInt n => S (Z.to_nat (n - retry_counter s))
  | PyStr _ => 1
  end.

Definition move_archive (backup_dir filename : string) (retry : bool)
  : Py string :=
  λ s, move_archive_rec (retry_depth s) backup_dir filename retry s.

(** [await sftp.get([info], localpath='cache', recurse=True)]: the item is
    stored in the cache directory under its base name, or the call
    raises. *)
Definition sftp_get (target : string) : Py unit :=
  modify (add_sftp_get target) ;;
  match w_sftp_get W target with
  | Fetched bytes =>
      modify (λ s, set_cache
                     (<[os_path_join (cache_dir G) (basename target) := bytes]>
                        <$> cache s) s)
  | FetchFails e => raise e
  end.

(** Lines 175 to 177 *)
Fixpoint for_info_in (targets : list string) : Py unit :=
  match targets with
  | [] => mret tt
  | t :: rest =>
      modify (set_info t) ;;
      logger_info ("Retrieving " +:+ quoted t) ;;
      sftp_get t ;;
      for_info_in rest
  end.
End Pipeline.

Section Run.
Context (W : World).

(** The path of the bundled 7-Zip binary, lines 194 to 198. *)
Definition executable : string :=
  if w_is_windows W
  then os_path_join_all (w_script_dir W) ["7z"; "win"; "7za.exe"]
  else os_path_join_all (w_script_dir W) ["7z"; "linux"; "7zz"].

(** [async with asyncssh.connect(...) as conn], line 168 *)
Definition asyncssh_connect : Py unit :=
  match w_connect_error W with
  | Some e => raise e
  | None => mret tt
  end.

(** [async with conn.start_sftp_client() as sftp], line 171 *)
Definition start_sftp_client : Py unit :=
  match w_session_error W with
  | Some e => raise e
  | None => mret tt
  end.

(** The three [except] clauses of lines 178 to 186. *)
Definition retrieval_handler (G : Globals) (e : exn) : option (Py unit) :=
  match e with
  | Exc SFTPNoSuchFile | Exc SFTPNoSuchPath =>
      Some (s ← get ;
            logger_error ("No such file/path: "
                            +:+ quoted (default EmptyString (info s))) ;;
            cleanup false)
  | Exc e' =>
      Some (logger_error ("Could not finish data retrieval: " +:+ exn_str e') ;;
            cleanup false)
  | SystemExit _ => None
  end.

(** The two [except] clauses of lines 187 to 192. *)
Definition connection_handler (e : exn) : option (Py unit) :=
  match e with
  | Exc (gaierror a) =>
      Some (logger_error ("Connection error: " +:+ a) ;; cleanup false)
  | Exc (PermissionDenied r) =>
      Some (logger_error r ;; cleanup false)
  | _ => None
  end.

(** Lines 167 to 192 *)
Definition retrieve (G : Globals) : Py unit :=
  try_except
    (asyncssh_connect ;;
     logger_info ("Connecting [HOST: " +:+ sftp_host G +:+ " | PORT: "
                    +:+ sftp_port G +:+ "]") ;;
     start_sftp_client ;;
     logger_info "Retrieving data (this might take a while)" ;;
     try_except (for_info_in W G (data G)) (retrieval_handler G))
    connection_handler.

(** The archiver's argument vector, line 201. *)
Definition archive_command (G : Globals) (filename : string) : list string :=
  [executable; "a"; "-t7z"; filename +:+ ".7z"] ++ data G.

(** Lines 200 to 208 *)
Definition build_archive (G : Globals) (filename : string) : Py unit :=
  let command := archive_command G filename in
  logger_info "Creating archive" ;;
  (if negb (w_is_windows W)
   then run_command W G ["chmod"; "+x"; executable]
   else mret tt) ;;
  run_command W G command.

(** Lines 166 to 217 *)
Definition main (G : Globals) (backup_dir : string) : Py unit :=
  retrieve G ;;
  let filename := get_filename G (w_now W) in
  build_archive G filename ;;
  logger_info "Moving backup" ;;
  archive_path ← move_archive G backup_dir filename false ;
  cleanup true ;;
  print (nl +:+ "Finished!" +:+ nl +:+ "Backup saved: "
           +:+ quoted archive_path +:+ nl) ;;
  sys_exit 1.

(** Lines 219 to 224 *)
Definition entry (G : Globals) : Py unit :=
  if negb (truthy (w_arg_dir W)) then
    logger_error "Output directory not specified" ;;
    sys_exit 1
  else main G (default EmptyString (w_arg_dir W)).

(** The whole script, from line 90 on. *)
Definition script : Py unit :=
  G ← startup W ;
  entry G.

Definition run : State * outcome unit := script (initial_state W).
End Run.

(** The status the interpreter exits with: the code of a [SystemExit],
    1 after any other exception that nothing caught, 0 when the script
    runs to its end. *)
Definition exit_status {A} (o : outcome A) : Z :=
  match o with
  | Return _ => 0
  | Raise (SystemExit code) => code
  | Raise _ => 1
  end.

(** * Properties *)

(** ** Strings *)

Lemma append_cons (x : ascii) (a b : string) :
  String x a +:+ b = String x (a +:+ b).
Proof. reflexivity. Qed.

Lemma append_assoc (a b c : string) : (a +:+ b) +:+ c = a +:+ (b +:+ c).
Proof.
  induction a as [|x a IH]; [done|]. rewrite !append_cons. by f_equal.
Qed.

Lemma length_append (a b : string) :
  String.length (a +:+ b) = (String.length a + String.length b)%nat.
Proof.
  induction a as [|x a IH]; [done|]. rewrite append_cons. simpl. by f_equal.
Qed.

Lemma append_inj_r (t a b : string) : a +:+ t = b +:+ t → a = b.
Proof.
  revert b. induction a as [|x a IH]; intros [|y b] H.
  - done.
  - apply (f_equal String.length) in H.
    rewrite !length_append in H. simpl in H. lia.
  - apply (f_equal String.length) in H.
    rewrite !length_append in H. simpl in H. lia.
  - rewrite !append_cons in H. injection H as -> H. f_equal. by apply IH.
Qed.

Lemma startswith_sep_append (a b : string) :
  startswith_sep (a +:+ b) =
  match a with EmptyString => startswith_sep b | _ => startswith_sep a end.
Proof. by destruct a. Qed.

Lemma basename_bare (p : string) : has_sep p = false → basename p = p.
Proof.
  destruct p as [|c r]; simpl; [done|].
  destruct (decide (c = sep)); [done|]. by intros ->.
Qed.

(** Two names built on one stem are joined to one directory in the same
    way, so distinct extensions give distinct paths. *)
Lemma os_path_join_stem_inj (d stem x y : string) :
  startswith_sep x = false → startswith_sep y = false →
  os_path_join d (stem +:+ x) = os_path_join d (stem +:+ y) → x = y.
Proof.
  intros Hx Hy. unfold os_path_join.
  assert (startswith_sep (stem +:+ x) = startswith_sep (stem +:+ y)) as ->.
  { rewrite !startswith_sep_append. destruct stem; congruence. }
  destruct (startswith_sep (stem +:+ y)).
  - by intros ?%(inj (String.append stem)).
  - destruct (if decide (d = EmptyString) then true else endswith_sep d).
    + by intros ?%(inj (String.append d))%(inj (String.append stem)).
    + intros ?%(inj (String.append d)).
      by simplify_eq/=; eapply (inj (String.append stem)).
Qed.

(** ** Naming the archive (lines 131 to 135) *)

Definition same_minute (t1 t2 : datetime) : Prop :=
  year t1 = year t2 ∧ month t1 = month t2 ∧ day t1 = day t2 ∧
  hour t1 = hour t2 ∧ minute t1 = minute t2.

(** C9.  The name [get_filename] builds is the configured base name, a
    dash, and the clock reading printed as day.month.year-hourminute with
    two digits per field and no seconds; two readings of the clock within
    one minute give the same name. *)
Theorem get_filename_minute_stable (G : Globals) (t1 t2 : datetime) :
  same_minute t1 t2 →
  get_filename G t1 =
    archive_name G +:+ "-" +:+
      (two_digits (day t1) +:+ "." +:+ two_digits (month t1) +:+ "." +:+
       two_digits (year t1) +:+ "-" +:+ two_digits (hour t1) +:+
       two_digits (minute t1))
  ∧ get_filename G t1 = get_filename G t2.
Proof.
  intros (Hy & Hm & Hd & Hh & Hmi). split; [reflexivity|].
  unfold get_filename, strftime_minute. by rewrite Hy, Hm, Hd, Hh, Hmi.
Qed.

Lemma get_filename_minute_stable_witness :
  get_filename (mkGlobals "/home/u/cache" (PyInt 10) "mc" "host" "22" ["world"])
               (mkDatetime 2025 1 1 12 0 7) = "mc-01.01.25-1200"
  ∧ get_filename (mkGlobals "/home/u/cache" (PyInt 10) "mc" "host" "22" ["world"])
                 (mkDatetime 2025 1 1 12 0 7)
    = get_filename (mkGlobals "/home/u/cache" (PyInt 10) "mc" "host" "22" ["world"])
                   (mkDatetime 2025 1 1 12 0 59).
Proof.
  split; [reflexivity|].
  apply (get_filename_minute_stable _ (mkDatetime 2025 1 1 12 0 7)
                                      (mkDatetime 2025 1 1 12 0 59)).
  repeat split.
Defined.

(** ** How a run ends *)

(** An outcome that, when it is a [SystemExit], carries the code 1. *)
Definition exits_with_one {A} (o : outcome A) : Prop :=
  match o with
  | Raise (SystemExit code) => code = 1
  | _ => True
  end.

Definition exit_one {A} (m : Py A) : Prop := ∀ s, exits_with_one (m s).2.

Definition raises {A} (o : outcome A) : Prop :=
  match o with
  | Return _ => False
  | Raise _ => True
  end.

Section ExitOne.
Context {A B : Type}.

Lemma exit_one_ret (a : A) : exit_one (mret a).
Proof. by intros s. Qed.

Lemma exit_one_raise (e : exception) : exit_one (@raise A e).
Proof. by intros s. Qed.

Lemma exit_one_sys_exit : exit_one (@sys_exit A 1).
Proof. by intros s. Qed.

Lemma exit_one_bind (m : Py A) (k : A → Py B) :
  exit_one m → (∀ a, exit_one (k a)) → exit_one (m ≫= k).
Proof.
  intros Hm Hk s. unfold mbind, Py_bind. specialize (Hm s).
  destruct (m s) as [s' [a|e]]; [apply Hk | exact Hm].
Qed.

Lemma exit_one_try (body : Py A) (handler : exn → option (Py A)) :
  exit_one body → (∀ e h, handler e = Some h → exit_one h) →
  exit_one (try_except body handler).
Proof.
  intros Hb Hh s. unfold try_except. specialize (Hb s).
  destruct (body s) as [s' [a|e]]; [done|].
  destruct (handler e) as [h|] eqn:E; [by eapply Hh | exact Hb].
Qed.

Lemma raises_bind_r (m : Py A) (k : A → Py B) (s : State) :
  (∀ a s', raises (k a s').2) → raises ((m ≫= k) s).2.
Proof.
  intros Hk. unfold mbind, Py_bind.
  destruct (m s) as [s' [a|e]]; [apply Hk | done].
Qed.
End ExitOne.

Lemma exit_one_modify (f : State → State) : exit_one (modify f).
Proof. by intros s. Qed.

Lemma exit_one_get : exit_one get.
Proof. by intros s. Qed.

Create HintDb exit_one.
#[local] Hint Resolve exit_one_modify exit_one_get : exit_one.
#[local] Hint Extern 1 (exit_one (mret _)) => apply exit_one_ret : exit_one.
#[local] Hint Extern 1 (exit_one (raise _)) => apply exit_one_raise : exit_one.
#[local] Hint Extern 1 (exit_one (sys_exit _)) =>
  apply exit_one_sys_exit : exit_one.
#[local] Hint Extern 1 (exit_one (logger_info _)) =>
  apply exit_one_modify : exit_one.
#[local] Hint Extern 1 (exit_one (logger_warning _)) =>
  apply exit_one_modify : exit_one.
#[local] Hint Extern 1 (exit_one (logger_error _)) =>
  apply exit_one_modify : exit_one.
#[local] Hint Extern 1 (exit_one (print _)) =>
  apply exit_one_modify : exit_one.

(** Walks through a sequence of statements, closing each with the lemmas
    collected so far and splitting on the branches of a conditional. *)
Ltac exit_one_step :=
  first
    [ solve [auto with exit_one nocore]
    | apply exit_one_bind; [|intros ?]
    | match goal with
      | |- exit_one (if ?b then _ else _) => destruct b
      | |- exit_one (match ?x with _ => _ end) => destruct x
      end ].

Lemma exit_one_shutil_rmtree : exit_one shutil_rmtree.
Proof. intros s. unfold shutil_rmtree. by destruct (cache s). Qed.
#[local] Hint Resolve exit_one_shutil_rmtree : exit_one.

Lemma exit_one_cleanup (success : bool) : exit_one (cleanup success).
Proof. unfold cleanup. repeat exit_one_step. Qed.
#[local] Hint Resolve exit_one_cleanup : exit_one.

Lemma exit_one_shutil_move (src dst : string) : exit_one (shutil_move src dst).
Proof.
  intros s. unfold shutil_move.
  destruct (cache (add_move src dst s) ≫= _); [|done].
  by destruct (dest (add_move src dst s) !! dst).
Qed.
#[local] Hint Resolve exit_one_shutil_move : exit_one.

Lemma exit_one_py_ge (c : Z) (l : pyval) : exit_one (py_ge c l).
Proof. unfold py_ge. repeat exit_one_step. Qed.
#[local] Hint Resolve exit_one_py_ge : exit_one.

(** A handler table all of whose handlers exit with 1. *)
Definition exit_one_handler {A} (handler : exn → option (Py A)) : Prop :=
  ∀ e h, handler e = Some h → exit_one h.

Ltac exit_one_handler :=
  let e := fresh "e" in let h := fresh "h" in let He := fresh "He" in
  intros e h He; repeat case_match; simplify_eq; repeat exit_one_step.

Lemma exit_one_move_archive_rec (G : Globals) (depth : nat)
      (backup_dir filename : string) (retry : bool) :
  exit_one (move_archive_rec G depth backup_dir filename retry).
Proof.
  revert retry. induction depth as [|d IH]; intros retry; simpl.
  all: apply exit_one_bind; [repeat exit_one_step|intros ?].
  all: apply exit_one_bind; [|intros ?; exit_one_step].
  all: apply exit_one_try; [exit_one_step|exit_one_handler].
Qed.

Lemma exit_one_move_archive (G : Globals) (backup_dir filename : string)
      (retry : bool) :
  exit_one (move_archive G backup_dir filename retry).
Proof.
  intros s.
  exact (exit_one_move_archive_rec G (retry_depth G s) backup_dir filename
                                   retry s).
Qed.
#[local] Hint Resolve exit_one_move_archive : exit_one.

Lemma exit_one_for_info_in (W : World) (G : Globals) (targets : list string) :
  exit_one (for_info_in W G targets).
Proof.
  induction targets as [|t rest IH]; simpl; [exit_one_step|].
  unfold sftp_get. repeat exit_one_step.
Qed.
#[local] Hint Resolve exit_one_for_info_in : exit_one.

Lemma exit_one_run_command (W : World) (G : Globals) (c : list string) :
  exit_one (run_command W G c).
Proof.
  unfold run_command, subprocess_run_check.
  do 2 (apply exit_one_bind; [exit_one_step|intros ?]).
  repeat case_match; exit_one_step.
Qed.
#[local] Hint Resolve exit_one_run_command : exit_one.

Lemma exit_one_retrieve (W : World) (G : Globals) : exit_one (retrieve W G).
Proof.
  unfold retrieve.
  apply exit_one_try; [|unfold connection_handler; exit_one_handler].
  unfold asyncssh_connect, start_sftp_client.
  do 4 (apply exit_one_bind; [repeat exit_one_step|intros ?]).
  apply exit_one_try; [exit_one_step|]. unfold retrieval_handler.
  exit_one_handler.
Qed.
#[local] Hint Resolve exit_one_retrieve : exit_one.

Lemma exit_one_main (W : World) (G : Globals) (backup_dir : string) :
  exit_one (main W G backup_dir).
Proof. unfold main, build_archive. repeat exit_one_step. Qed.

Lemma exit_one_startup (W : World) : exit_one (startup W).
Proof.
  unfold startup, os_makedirs_exist_ok.
  apply exit_one_bind; [exit_one_step|intros ?].
  apply exit_one_bind; [|intros ?].
  { unfold parse_retries. apply exit_one_bind; [|intros ?; exit_one_step].
    destruct (truthy _); [|exit_one_step].
    apply exit_one_try; [repeat exit_one_step|exit_one_handler]. }
  apply exit_one_bind; [exit_one_step|intros ?].
  apply exit_one_bind; [|intros ?].
  { unfold load_config.
    apply exit_one_try; [repeat exit_one_step|exit_one_handler]. }
  unfold extract_config, subscript.
  apply exit_one_try; [repeat exit_one_step|exit_one_handler].
Qed.

Lemma exit_one_script (W : World) : exit_one (script W).
Proof.
  unfold script, entry.
  apply exit_one_bind; [apply exit_one_startup|intros G].
  destruct (negb _); [repeat exit_one_step|apply exit_one_main].
Qed.

Lemma script_raises (W : World) (s : State) : raises (script W s).2.
Proof.
  unfold script. apply raises_bind_r. intros G s'. unfold entry.
  case_match.
  - by apply raises_bind_r.
  - unfold main. do 4 (apply raises_bind_r; intros ??).
    do 2 (apply raises_bind_r; intros ??). done.
Qed.

(** C5.  Every run of the script ends with exit status 1: each explicit
    [sys.exit] passes 1, also the one that follows the report of a finished
    backup on line 217, and an exception that nothing catches makes the
    interpreter exit with 1 as well. *)
Theorem exit_status_always_one (W : World) : exit_status (run W).2 = 1.
Proof.
  unfold run.
  pose proof (exit_one_script W (initial_state W)) as H1.
  pose proof (script_raises W (initial_state W)) as H2.
  destruct (script W (initial_state W)) as [s [a|[c|e]]]; simpl in *; done.
Qed.

(** ** Placement (lines 143 to 164) *)

Ltac py_unfold :=
  unfold mbind, mret, Py_bind, Py_ret, modify, get, raise, sys_exit,
    logger_info, logger_warning, logger_error, print, try_except, cleanup,
    shutil_rmtree, shutil_move, py_ge.
Ltac py_run := repeat (progress (py_unfold; cbn)).

(** The names [move_archive] tries: the plain one first, then one per value
    of the retry counter. *)
Definition plain_name (filename : string) : string := filename +:+ ".7z".
Definition suffixed_name (filename : string) (c : Z) : string :=
  (filename +:+ "(" +:+ pretty c +:+ ")") +:+ ".7z".

Lemma suffixed_name_ext (filename : string) (c : Z) :
  suffixed_name filename c = filename +:+ ("(" +:+ pretty c +:+ ")" +:+ ".7z").
Proof. unfold suffixed_name. by rewrite !append_assoc. Qed.

Section Placement.
Context (G : Globals) (backup_dir filename : string).

Definition archive_src : string :=
  os_path_join (cache_dir G) (filename +:+ ".7z").
Definition plain_path : string :=
  os_path_join backup_dir (plain_name filename).
Definition suffixed_path (c : Z) : string :=
  os_path_join backup_dir (suffixed_name filename c).

(** Slot 0 is [name.7z], slot [i] is [name(i).7z]. *)
Definition slot_path (i : nat) : string :=
  match i with
  | O => plain_path
  | S _ => suffixed_path (Z.of_nat i)
  end.

Lemma suffixed_path_inj (a b : Z) : suffixed_path a = suffixed_path b → a = b.
Proof.
  unfold suffixed_path. rewrite !suffixed_name_ext.
  intros H%os_path_join_stem_inj; [|done..].
  apply (inj (String.append "(")) in H.
  apply append_inj_r in H.
  by apply (inj pretty) in H.
Qed.

Lemma plain_path_ne_suffixed (c : Z) : plain_path ≠ suffixed_path c.
Proof.
  unfold plain_path, suffixed_path, plain_name.
  rewrite suffixed_name_ext. by intros H%os_path_join_stem_inj.
Qed.

Lemma slot_path_inj (i j : nat) : slot_path i = slot_path j → i = j.
Proof.
  destruct i as [|i], j as [|j]; unfold slot_path; intros H.
  - done.
  - by apply plain_path_ne_suffixed in H.
  - symmetry in H. by apply plain_path_ne_suffixed in H.
  - apply suffixed_path_inj in H. lia.
Qed.

(** The state after line 148 of a retry. *)
Definition warned (s : State) : State :=
  add_log WARNING
    ("Backup file already exists, adding numbered sufix to filename: "
       +:+ pretty (retry_counter s + 1))
    (set_retry_counter (retry_counter s + 1) s).

(** The state after [cleanup]. *)
Definition cleaned (s : State) : State :=
  set_cache None (add_log INFO "Clearing cache" (add_cleanup s)).

(** The state after a [shutil.move] to the free path [p]. *)
Definition landed (p bytes : string) (s : State) : State :=
  set_dest (<[p := bytes]> (dest s))
           (set_cache (delete archive_src <$> cache s)
                      (add_move archive_src p s)).

(** The state after [n] retries that each met an occupied path. *)
Fixpoint collided (n : nat) (s : State) : State :=
  match n with
  | O => s
  | S n' =>
      collided n' (add_move archive_src (suffixed_path (retry_counter s + 1))
                            (warned s))
  end.

Definition limit_reached (s : State) : State :=
  add_log ERROR ("Amount of numbered sufix limit reached: "
                   +:+ py_format (retry_limit G)) (warned s).

Lemma first_lands d s c bytes :
  cache s = Some c → c !! archive_src = Some bytes →
  dest s !! plain_path = None →
  move_archive_rec G d backup_dir filename false s =
  (landed plain_path bytes s, Return plain_path).
Proof.
  intros Hc Hsrc Hfree. destruct d; py_run.
  all: fold archive_src; fold (plain_name filename); fold plain_path.
  all: rewrite Hc; cbn; rewrite Hsrc, Hfree.
  all: unfold landed; by rewrite Hc.
Qed.

Lemma first_collides d s c bytes :
  cache s = Some c → c !! archive_src = Some bytes →
  is_Some (dest s !! plain_path) →
  move_archive_rec G (S d) backup_dir filename false s =
  let r := move_archive_rec G d backup_dir filename true
                            (add_move archive_src plain_path s) in
  (r.1, match r.2 with Return _ => Return plain_path | Raise e => Raise e end).
Proof.
  intros Hc Hsrc [old Hold]. py_run.
  fold archive_src; fold (plain_name filename); fold plain_path.
  rewrite Hc; cbn; rewrite Hsrc, Hold.
  by destruct (move_archive_rec _ _ _ _ _ _) as [s' [p|e]].
Qed.

Lemma retry_type_error d s t :
  retry_limit G = PyStr t →
  move_archive_rec G d backup_dir filename true s =
  (warned s, Raise (Exc TypeError)).
Proof. intros Hl. destruct d; py_run; by rewrite Hl. Qed.

Lemma retry_exhausted d s l :
  retry_limit G = PyInt l → l ≤ retry_counter s + 1 → is_Some (cache s) →
  move_archive_rec G d backup_dir filename true s =
  (cleaned (limit_reached s), Raise (SystemExit 1)).
Proof.
  intros Hl Hle [c Hc]. unfold limit_reached. destruct d; py_run.
  all: rewrite Hl; py_run.
  all: rewrite bool_decide_true by done; py_run.
  all: by rewrite Hc.
Qed.

Lemma retry_lands d s l c bytes :
  retry_limit G = PyInt l → retry_counter s + 1 < l →
  cache s = Some c → c !! archive_src = Some bytes →
  dest s !! suffixed_path (retry_counter s + 1) = None →
  move_archive_rec G d backup_dir filename true s =
  (landed (suffixed_path (retry_counter s + 1)) bytes (warned s),
   Return (suffixed_path (retry_counter s + 1))).
Proof.
  intros Hl Hlt Hc Hsrc Hfree. destruct d; py_run.
  all: rewrite Hl; py_run.
  all: rewrite bool_decide_false by lia; py_run.
  all: fold archive_src; fold (suffixed_name filename (retry_counter s + 1)).
  all: fold (suffixed_path (retry_counter s + 1)).
  all: rewrite Hc; cbn; rewrite Hsrc, Hfree.
  all: unfold landed; cbn; by rewrite Hc.
Qed.

Lemma retry_collides d s l c bytes :
  retry_limit G = PyInt l → retry_counter s + 1 < l →
  cache s = Some c → c !! archive_src = Some bytes →
  is_Some (dest s !! suffixed_path (retry_counter s + 1)) →
  move_archive_rec G (S d) backup_dir filename true s =
  let r := move_archive_rec G d backup_dir filename true
             (add_move archive_src (suffixed_path (retry_counter s + 1))
                       (warned s)) in
  (r.1, match r.2 with
        | Return _ => Return (suffixed_path (retry_counter s + 1))
        | Raise e => Raise e
        end).
Proof.
  intros Hl Hlt Hc Hsrc [old Hold]. py_run.
  rewrite Hl; py_run.
  rewrite bool_decide_false by lia; py_run.
  fold archive_src; fold (suffixed_name filename (retry_counter s + 1)).
  fold (suffixed_path (retry_counter s + 1)).
  rewrite Hc; cbn; rewrite Hsrc, Hold.
  by destruct (move_archive_rec _ _ _ _ _ _) as [s' [p|e]].
Qed.
Lemma cache_collided n s : cache (collided n s) = cache s.
Proof.
  revert s. induction n as [|n IH]; intros s; [done|].
  cbn [collided]. by rewrite IH.
Qed.

Lemma dest_collided n s : dest (collided n s) = dest s.
Proof.
  revert s. induction n as [|n IH]; intros s; [done|].
  cbn [collided]. by rewrite IH.
Qed.

Lemma cleanups_collided n s : cleanups (collided n s) = cleanups s.
Proof.
  revert s. induction n as [|n IH]; intros s; [done|].
  cbn [collided]. by rewrite IH.
Qed.

Lemma retry_counter_collided n s :
  retry_counter (collided n s) = retry_counter s + Z.of_nat n.
Proof.
  revert s. induction n as [|n IH]; intros s; cbn [collided]; [lia|].
  rewrite IH. cbn. lia.
Qed.

Lemma moves_collided n s :
  moves (collided n s) =
  (moves s ++
     ((λ i : nat, (archive_src,
                   suffixed_path (retry_counter s + 1 + Z.of_nat i)))
        <$> seq 0 n))%list.
Proof.
  revert s. induction n as [|n IH]; intros s; cbn [collided].
  { by rewrite app_nil_r. }
  rewrite IH. cbn. rewrite <-app_assoc. f_equal. cbn. f_equal.
  { do 2 f_equal. lia. }
  rewrite <-seq_shift, <-list_fmap_compose. apply list_fmap_ext.
  intros _ i _. cbn. do 2 f_equal. lia.
Qed.

(** [n] collisions followed by a free path below the limit. *)
Lemma retries_land l c bytes n : ∀ d s,
  retry_limit G = PyInt l →
  retry_counter s + 1 + Z.of_nat n < l →
  cache s = Some c → c !! archive_src = Some bytes →
  (∀ i : nat, (i < n)%nat →
     is_Some (dest s !! suffixed_path (retry_counter s + 1 + Z.of_nat i))) →
  dest s !! suffixed_path (retry_counter s + 1 + Z.of_nat n) = None →
  (n ≤ d)%nat →
  move_archive_rec G d backup_dir filename true s =
  (landed (suffixed_path (retry_counter s + 1 + Z.of_nat n)) bytes
          (warned (collided n s)),
   Return (suffixed_path (retry_counter s + 1))).
Proof.
  induction n as [|n IH]; intros d s Hl Hlt Hc Hsrc Hocc Hfree Hd.
  - replace (retry_counter s + 1 + Z.of_nat 0) with (retry_counter s + 1)
      in * by lia.
    cbn [collided]. by eapply retry_lands.
  - destruct d as [|d]; [lia|].
    erewrite retry_collides; [|done|lia|done|done|].
    2:{ specialize (Hocc 0%nat).
        replace (retry_counter s + 1 + Z.of_nat 0) with (retry_counter s + 1)
          in Hocc by lia.
        apply Hocc. lia. }
    cbn zeta.
    rewrite (IH d); [|done|cbn; lia|done|done| | |lia].
    + cbn. do 3 f_equal. lia.
    + intros i Hi. cbn.
      replace (retry_counter s + 1 + 1 + Z.of_nat i)
        with (retry_counter s + 1 + Z.of_nat (S i)) by lia.
      apply Hocc. lia.
    + cbn.
      replace (retry_counter s + 1 + 1 + Z.of_nat n)
        with (retry_counter s + 1 + Z.of_nat (S n)) by lia.
      done.
Qed.

(** [n] collisions below the limit, and the next retry reaches it. *)
Lemma retries_exhaust l c bytes n : ∀ d s,
  retry_limit G = PyInt l →
  l ≤ retry_counter s + 1 + Z.of_nat n →
  (n = 0%nat ∨ retry_counter s + Z.of_nat n < l) →
  cache s = Some c → c !! archive_src = Some bytes →
  (∀ i : nat, (i < n)%nat →
     is_Some (dest s !! suffixed_path (retry_counter s + 1 + Z.of_nat i))) →
  (n ≤ d)%nat →
  move_archive_rec G d backup_dir filename true s =
  (cleaned (limit_reached (collided n s)), Raise (SystemExit 1)).
Proof.
  induction n as [|n IH]; intros d s Hl Hle Hlt Hc Hsrc Hocc Hd.
  - cbn [collided]. eapply retry_exhausted; [done|lia|by rewrite Hc].
  - destruct d as [|d]; [lia|].
    destruct Hlt as [|Hlt]; [done|].
    erewrite retry_collides; [|done|lia|done|done|].
    2:{ specialize (Hocc 0%nat).
        replace (retry_counter s + 1 + Z.of_nat 0) with (retry_counter s + 1)
          in Hocc by lia.
        apply Hocc. lia. }
    cbn zeta.
    rewrite (IH d); [done|done|cbn; lia| |done|done| |lia].
    + cbn. destruct n; [by left|right; lia].
    + intros i Hi. cbn.
      replace (retry_counter s + 1 + 1 + Z.of_nat i)
        with (retry_counter s + 1 + Z.of_nat (S i)) by lia.
      apply Hocc. lia.
Qed.
End Placement.

(** *** Placement from a fresh retry counter *)

Section Place.
Context (G : Globals) (backup_dir filename : string).
Context (l : Z) (s : State) (c : gmap string string) (bytes : string).
Context (Hlimit : retry_limit G = PyInt l).
Context (Hfresh : retry_counter s = 0).
Context (Hcache : cache s = Some c).
Context (Hsrc : c !! archive_src G filename = Some bytes).

Abbreviation slot := (slot_path backup_dir filename).
Abbreviation src := (archive_src G filename).
Abbreviation first_tried := (add_move src (plain_path backup_dir filename) s).

(** The destination directory holds the first [k] slots and no later one. *)
Definition occupied_upto (k : nat) : Prop :=
  ∀ i : nat, is_Some (dest s !! slot i) ↔ (i < k)%nat.

Lemma place_free :
  occupied_upto 0 →
  move_archive G backup_dir filename false s =
  (landed G filename (slot 0) bytes s, Return (slot 0)).
Proof.
  intros Hocc. unfold move_archive. eapply first_lands; [done..|].
  apply eq_None_not_Some. rewrite (Hocc 0%nat). lia.
Qed.

Lemma place_after_collisions (n : nat) :
  occupied_upto (S n) → Z.of_nat (S n) < l →
  move_archive G backup_dir filename false s =
  (landed G filename (slot (S n)) bytes
          (warned (collided G backup_dir filename n first_tried)),
   Return (slot 0)).
Proof.
  intros Hocc Hlt. unfold move_archive, retry_depth.
  rewrite Hlimit, Hfresh.
  erewrite first_collides; [|done|done|apply (Hocc 0%nat); lia].
  cbn zeta.
  erewrite (retries_land G backup_dir filename l c bytes n);
    [|done|cbn; lia|done|done| | |lia].
  - cbn. rewrite Hfresh. do 2 f_equal. unfold slot_path. f_equal. lia.
  - intros i Hi. cbn. rewrite Hfresh.
    replace (0 + 1 + Z.of_nat i) with (Z.of_nat (S i)) by lia.
    apply (Hocc (S i)). lia.
  - cbn. rewrite Hfresh. apply eq_None_not_Some.
    replace (0 + 1 + Z.of_nat n) with (Z.of_nat (S n)) by lia.
    rewrite (Hocc (S n)). lia.
Qed.

Lemma place_exhausted (k : nat) :
  occupied_upto k → 0 < l → l ≤ Z.of_nat k →
  move_archive G backup_dir filename false s =
  (cleaned (limit_reached G
              (collided G backup_dir filename (Z.to_nat l - 1) first_tried)),
   Raise (SystemExit 1)).
Proof.
  intros Hocc Hpos Hle. unfold move_archive, retry_depth.
  rewrite Hlimit, Hfresh.
  erewrite first_collides; [|done|done|apply (Hocc 0%nat); lia].
  cbn zeta.
  erewrite (retries_exhaust G backup_dir filename l c bytes (Z.to_nat l - 1));
    [done|done|cbn; lia|cbn; lia|done|done| |lia].
  intros i Hi. cbn. rewrite Hfresh.
  replace (0 + 1 + Z.of_nat i) with (Z.of_nat (S i)) by lia.
  apply (Hocc (S i)). lia.
Qed.
End Place.

Lemma slots_tried (backup_dir filename : string) (n : nat) :
  slot_path backup_dir filename <$> seq 0 (S (S n)) =
  (plain_path backup_dir filename ::
     ((λ i : nat, suffixed_path backup_dir filename (0 + 1 + Z.of_nat i))
        <$> seq 0 n) ++ [slot_path backup_dir filename (S n)])%list.
Proof.
  change (seq 0 (S (S n))) with (0%nat :: seq 1 (S n)).
  rewrite seq_S, fmap_cons, fmap_app. cbn [fmap list_fmap slot_path].
  f_equal. f_equal.
  rewrite <-seq_shift, <-list_fmap_compose. apply list_fmap_ext.
  intros _ i _. cbn. unfold slot_path. f_equal. lia.
Qed.

Lemma slots_distinct (backup_dir filename : string) (n : nat) :
  NoDup (slot_path backup_dir filename <$> seq 0 n).
Proof.
  apply NoDup_fmap_2_strong; [|apply NoDup_seq].
  intros i j _ _. apply slot_path_inj.
Qed.



Section PlacementInvariant.
Context (G : Globals) (backup_dir filename : string).

(** What one call of [move_archive] may do to the destination directory:
    every file stays as it is, and a path that appears is the plain name
    (first attempt only) or a suffixed name with a counter value the call
    has newly reached. *)
Definition dest_extended (retry : bool) (s s' : State) : Prop :=
  dest s ⊆ dest s' ∧
  ∀ q, dest s !! q = None → is_Some (dest s' !! q) →
       (retry = false ∧ q = plain_path backup_dir filename) ∨
       ∃ n, retry_counter s < n ∧ q = suffixed_path backup_dir filename n.

Lemma dest_extended_same retry s s' : dest s' = dest s → dest_extended retry s s'.
Proof.
  intros E. split; [by rewrite E|].
  intros q Hq [x Hx]. rewrite E in Hx. congruence.
Qed.

Lemma dest_extended_plain s s' bytes :
  dest s !! plain_path backup_dir filename = None →
  dest s' = <[plain_path backup_dir filename := bytes]> (dest s) →
  dest_extended false s s'.
Proof.
  intros Hfree E. split; [rewrite E; by apply insert_subseteq|].
  intros q Hq [x Hx]. rewrite E in Hx. left. split; [done|].
  destruct (decide (plain_path backup_dir filename = q)); [done|].
  rewrite lookup_insert_ne in Hx by done. congruence.
Qed.

Lemma dest_extended_suffixed retry s s' bytes :
  dest s !! suffixed_path backup_dir filename (retry_counter s + 1) = None →
  dest s' = <[suffixed_path backup_dir filename (retry_counter s + 1) := bytes]>
              (dest s) →
  dest_extended retry s s'.
Proof.
  intros Hfree E. split; [rewrite E; by apply insert_subseteq|].
  intros q Hq [x Hx]. rewrite E in Hx. right.
  exists (retry_counter s + 1). split; [lia|].
  destruct (decide (suffixed_path backup_dir filename (retry_counter s + 1) = q));
    [done|].
  rewrite lookup_insert_ne in Hx by done. congruence.
Qed.

Lemma dest_extended_step retry s t s' :
  dest t = dest s → retry_counter s ≤ retry_counter t →
  dest_extended true t s' → dest_extended retry s s'.
Proof.
  intros E Hle [Hsub Hnew]. rewrite E in Hsub. split; [done|].
  intros q Hq Hq'. rewrite <-E in Hq.
  destruct (Hnew q Hq Hq') as [[? _]|(n & Hn & ->)]; [done|].
  right. exists n. split; [lia|done].
Qed.

Lemma move_archive_rec_dest d : ∀ retry s,
  dest_extended retry s (move_archive_rec G d backup_dir filename retry s).1.
Proof.
  induction d as [|d IH]; intros [] s; py_run.
  all: repeat case_match; simplify_eq/=.
  all: try (apply dest_extended_same; done).
  all: try (eapply dest_extended_plain; [eassumption|reflexivity]).
  all: try (eapply dest_extended_suffixed; [eassumption|reflexivity]).
  all: match goal with
       | H : context [move_archive_rec G ?d' _ _ true ?t] |- _ =>
           let IH' := fresh in
           pose proof (IH true t) as IH';
           destruct (move_archive_rec G d' backup_dir filename true t)
             as [? [?|?]];
           simplify_eq/=;
           (eapply dest_extended_step; [| |exact IH']; cbn; [done|lia])
       end.
Qed.

End PlacementInvariant.


(** Whatever the retries do, a first call that returns hands back the path
    of its own first attempt: the value of the nested call on line 162 is
    dropped. *)
Lemma move_archive_returns_plain_path (G : Globals)
      (backup_dir filename : string) (s : State) (p : string) :
  (move_archive G backup_dir filename false s).2 = Return p →
  p = plain_path backup_dir filename.
Proof.
  unfold move_archive. destruct (retry_depth G s); py_run.
  all: repeat case_match; simplify_eq/=; try done.
  all: by intros [= <-].
Qed.

(** A run that finds [mc-01.01.25-1200.7z] in the destination directory. *)
Definition world_with_collision : World :=
  mkWorld "/home/u" "/opt/sb" false (Some "/backups") None
    (ConfigObject (Some "mc") (Some ("host", "22")) (Some ["world"; "plugins"]))
    None None (λ t, Fetched ("<" +:+ t +:+ ">")) (λ _, 0) "ARCHIVE"
    (mkDatetime 2025 1 1 12 0 7) None
    {[ "/backups/mc-01.01.25-1200.7z" := "old" ]}.


(** ** Retrieval (lines 167 to 192) *)

Lemma prefix_of_append (n z : string) : prefix_of n (n +:+ z) = true.
Proof.
  induction n as [|x n IH]; [done|]. rewrite append_cons. cbn.
  by rewrite decide_True.
Qed.

Lemma contains_prefix (n hay : string) :
  prefix_of n hay = true → contains n hay = true.
Proof. intros H. destruct hay; cbn; by rewrite H. Qed.

Lemma contains_append (a n z : string) : contains n (a +:+ n +:+ z) = true.
Proof.
  induction a as [|x a IH].
  - change (EmptyString +:+ n +:+ z) with (n +:+ z).
    apply contains_prefix, prefix_of_append.
  - rewrite append_cons. cbn [contains]. rewrite IH. by case_match.
Qed.

Lemma contains_quoted (a t : string) : contains t (a +:+ quoted t) = true.
Proof.
  unfold quoted.
  change (String (ascii_of_nat 34) (t +:+ String (ascii_of_nat 34) EmptyString))
    with (String (ascii_of_nat 34) EmptyString
            +:+ (t +:+ String (ascii_of_nat 34) EmptyString)).
  rewrite <-append_assoc. apply contains_append.
Qed.

Section Retrieval.
Context (W : World) (G : Globals).

Definition fetch_ok (t : string) : Prop := ∃ bytes, w_sftp_get W t = Fetched bytes.

Definition local_path (t : string) : string :=
  os_path_join (cache_dir G) (basename t).

(** What a fetch of [t] that returns puts into the cache directory. *)
Definition store (c : gmap string string) (t : string) : gmap string string :=
  match w_sftp_get W t with
  | Fetched bytes => <[local_path t := bytes]> c
  | FetchFails _ => c
  end.

(** The state after one round of the loop for [t], whether [sftp.get]
    returned or raised. *)
Definition fetch_one (s : State) (t : string) : State :=
  let s' := add_sftp_get t
              (add_log INFO ("Retrieving " +:+ quoted t) (set_info t s)) in
  set_cache ((λ c, store c t) <$> cache s') s'.

Lemma for_info_in_ok (targets : list string) : ∀ s,
  Forall fetch_ok targets →
  for_info_in W G targets s = (fold_left fetch_one targets s, Return tt).
Proof.
  induction targets as [|t rest IH]; intros s Hok; [done|].
  apply Forall_cons in Hok as [[bytes Ht] Hrest].
  cbn [for_info_in fold_left]. rewrite <-(IH _ Hrest).
  unfold sftp_get. py_run. rewrite Ht. py_run.
  unfold fetch_one, store, local_path. rewrite Ht. done.
Qed.

Lemma for_info_in_fails (pre post : list string) (b : string) (e : exception) :
  ∀ s, Forall fetch_ok pre → w_sftp_get W b = FetchFails e →
  for_info_in W G (pre ++ b :: post) s =
  (fetch_one (fold_left fetch_one pre s) b, Raise (Exc e)).
Proof.
  induction pre as [|t rest IH]; intros s Hok Hb.
  - cbn [app for_info_in fold_left]. unfold sftp_get. py_run.
    rewrite Hb. py_run. unfold fetch_one, store. rewrite Hb.
    f_equal. destruct s as [[c|] ? ? ? ? ? ? ? ? ?]; cbn; done.
  - apply Forall_cons in Hok as [[bytes Ht] Hrest].
    cbn [app for_info_in fold_left]. rewrite <-(IH _ Hrest Hb).
    unfold sftp_get. py_run. rewrite Ht. py_run.
    unfold fetch_one, store, local_path. rewrite Ht. done.
Qed.

(** What the rounds of the loop change and what they leave alone. *)
Lemma fetched_sftp_gets (ts : list string) : ∀ s,
  sftp_gets (fold_left fetch_one ts s) = (sftp_gets s ++ ts)%list.
Proof.
  induction ts as [|t ts IH]; intros s; cbn [fold_left].
  - by rewrite app_nil_r.
  - rewrite IH. cbn. by rewrite <-app_assoc.
Qed.

Lemma fetched_cache (ts : list string) : ∀ s,
  cache (fold_left fetch_one ts s) = (λ c, fold_left store ts c) <$> cache s.
Proof.
  induction ts as [|t ts IH]; intros s; cbn [fold_left].
  - by destruct (cache s).
  - rewrite IH. cbn. by destruct (cache s).
Qed.

Lemma fetched_unchanged (ts : list string) : ∀ s,
  dest (fold_left fetch_one ts s) = dest s ∧
  cleanups (fold_left fetch_one ts s) = cleanups s ∧
  retry_counter (fold_left fetch_one ts s) = retry_counter s ∧
  commands (fold_left fetch_one ts s) = commands s ∧
  moves (fold_left fetch_one ts s) = moves s ∧
  stdout (fold_left fetch_one ts s) = stdout s.
Proof.
  induction ts as [|t ts IH]; intros s; cbn [fold_left]; [done|].
  destruct (IH (fetch_one s t)) as (-> & -> & -> & -> & -> & ->). done.
Qed.

(** With bare target names, the entries of the cache directory are the
    targets themselves, resolved against the cache directory. *)
Lemma stored_dom (ts : list string) : ∀ c,
  Forall fetch_ok ts → Forall (λ t, has_sep t = false) ts →
  dom (fold_left store ts c) =
  dom c ∪ list_to_set (os_path_join (cache_dir G) <$> ts).
Proof.
  induction ts as [|t ts IH]; intros c Hok Hbare; cbn [fold_left].
  - cbn. by rewrite (right_id_L ∅ (∪)).
  - apply Forall_cons in Hok as [[bytes Ht] Hok'].
    apply Forall_cons in Hbare as [Hb Hbare'].
    rewrite IH by done. unfold store. rewrite Ht.
    unfold local_path. rewrite basename_bare by done.
    rewrite dom_insert_L. cbn.
    by rewrite (comm_L (∪) {[_]} (dom c)), (assoc_L (∪)).
Qed.

Definition connected (s : State) : State :=
  add_log INFO "Retrieving data (this might take a while)"
    (add_log INFO ("Connecting [HOST: " +:+ sftp_host G +:+ " | PORT: "
                     +:+ sftp_port G +:+ "]") s).

Lemma retrieve_ok (s : State) :
  w_connect_error W = None → w_session_error W = None →
  Forall fetch_ok (data G) →
  retrieve W G s = (fold_left fetch_one (data G) (connected s), Return tt).
Proof.
  intros Hc Hs Hok. unfold retrieve, asyncssh_connect, start_sftp_client.
  rewrite Hc, Hs. py_run. by rewrite for_info_in_ok.
Qed.

(** The error record of the handler that catches [e] for the target [b]. *)
Definition retrieval_error (b : string) (e : exception) : string :=
  match e with
  | SFTPNoSuchFile | SFTPNoSuchPath => "No such file/path: " +:+ quoted b
  | _ => "Could not finish data retrieval: " +:+ exn_str e
  end.

Lemma retrieve_fails (pre post : list string) (b : string) (e : exception)
      (s : State) :
  data G = (pre ++ b :: post)%list →
  w_connect_error W = None → w_session_error W = None →
  Forall fetch_ok pre → w_sftp_get W b = FetchFails e →
  is_Some (cache s) →
  retrieve W G s =
  (cleaned (add_log ERROR (retrieval_error b e)
                    (fetch_one (fold_left fetch_one pre (connected s)) b)),
   Raise (SystemExit 1)).
Proof.
  intros Hd Hc Hs Hok Hb [c Hcache].
  assert (is_Some (cache (fetch_one (fold_left fetch_one pre (connected s)) b)))
    as [c' Hc'].
  { cbn. rewrite fetched_cache. cbn. rewrite Hcache. by eexists. }
  unfold retrieve, asyncssh_connect, start_sftp_client.
  rewrite Hc, Hs, Hd. py_run.
  rewrite (for_info_in_fails pre post b e) by done.
  fold (connected s).
  assert (info (fetch_one (fold_left fetch_one pre (connected s)) b) = Some b)
    as Hinfo by done.
  set (sf := fetch_one (fold_left fetch_one pre (connected s)) b) in *.
  clearbody sf. unfold retrieval_handler, cleaned.
  destruct e; py_run; rewrite Hc', ?Hinfo; reflexivity.
Qed.
End Retrieval.

(** ** Building the archive (lines 194 to 208) and start-up *)

Section Build.
Context (W : World) (G : Globals).

(** The state after a [subprocess.run] that returned 0: the call is
    recorded and, for the archiver, the archive is in the working
    directory. *)
Definition ran (command : list string) (c : gmap string string) (s : State)
  : State :=
  match command with
  | _ :: "a" :: "-t7z" :: out :: _ =>
      set_cache (Some (<[os_path_join (cache_dir G) out := w_archive_bytes W]> c))
                (add_command command (cache_dir G) s)
  | _ => add_command command (cache_dir G) s
  end.

Lemma run_command_ok (command : list string) (c : gmap string string)
      (s : State) :
  cache s = Some c → w_returncode W command = 0 →
  run_command W G command s = (ran command c s, Return tt).
Proof.
  intros Hc Hrc. unfold run_command, subprocess_run_check, ran. py_run.
  rewrite Hc, Hrc. cbn. by repeat case_match.
Qed.

Lemma run_command_fails (command : list string) (c : gmap string string)
      (s : State) :
  cache s = Some c → w_returncode W command ≠ 0 →
  run_command W G command s =
  (add_command command (cache_dir G) s, Raise (Exc CalledProcessError)).
Proof.
  intros Hc Hrc. unfold run_command, subprocess_run_check. py_run.
  rewrite Hc. by rewrite decide_False.
Qed.

Definition chmod_command : list string := ["chmod"; "+x"; executable W].

(** The state after line 206. *)
Definition made_executable (s : State) : State :=
  if w_is_windows W then s else add_command chmod_command (cache_dir G) s.

Definition chmod_ok : Prop :=
  w_is_windows W = false → w_returncode W chmod_command = 0.

Lemma build_archive_ok (filename : string) (c : gmap string string) (s : State) :
  cache s = Some c → chmod_ok →
  w_returncode W (archive_command W G filename) = 0 →
  build_archive W G filename s =
  (ran (archive_command W G filename) c
       (made_executable (add_log INFO "Creating archive" s)),
   Return tt).
Proof.
  intros Hc Hch Hrc. unfold build_archive, made_executable. py_run.
  destruct (w_is_windows W) eqn:Hw; cbn [negb].
  - py_run. by rewrite (run_command_ok _ c).
  - rewrite (run_command_ok _ c) by auto. py_run.
    by rewrite (run_command_ok _ c).
Qed.

Lemma build_archive_fails (filename : string) (c : gmap string string)
      (s : State) :
  cache s = Some c → chmod_ok →
  w_returncode W (archive_command W G filename) ≠ 0 →
  build_archive W G filename s =
  (add_command (archive_command W G filename) (cache_dir G)
               (made_executable (add_log INFO "Creating archive" s)),
   Raise (Exc CalledProcessError)).
Proof.
  intros Hc Hch Hrc. unfold build_archive, made_executable. py_run.
  destruct (w_is_windows W) eqn:Hw; cbn [negb].
  - py_run. by rewrite (run_command_fails _ c).
  - rewrite (run_command_ok _ c) by auto. py_run.
    by rewrite (run_command_fails _ c).
Qed.
End Build.

(** The value line 105 gives [retry_limit]. *)
Definition limit_of_flag (retries : option string) : pyval :=
  if truthy retries then PyStr (default EmptyString retries) else PyInt 10.

(** The flag is absent, empty, or a text that [int] accepts. *)
Definition retries_accepted (retries : option string) : Prop :=
  truthy retries = true → is_Some (py_int (default EmptyString retries)).

(** The state after lines 90 to 106. *)
Definition started (s : State) : State :=
  set_retry_counter 0 (set_cache (Some (default ∅ (cache s))) s).

Lemma parse_retries_ok (retries : option string) (s : State) :
  retries_accepted retries →
  parse_retries retries s = (s, Return (limit_of_flag retries)).
Proof.
  intros Hacc. unfold parse_retries, limit_of_flag, retries_accepted in *.
  py_run. destruct (truthy retries); [|done].
  destruct (Hacc eq_refl) as [n ->]. done.
Qed.

Lemma startup_ok (W : World) (name host port : string) (targets : list string)
      (s : State) :
  retries_accepted (w_arg_retries W) →
  w_config W = ConfigObject (Some name) (Some (host, port)) (Some targets) →
  startup W s =
  (started s,
   Return (mkGlobals (os_path_join (w_cwd W) "cache")
                     (limit_of_flag (w_arg_retries W)) name host port targets)).
Proof.
  intros Hacc Hcfg. unfold startup, os_makedirs_exist_ok. py_run.
  rewrite parse_retries_ok by done. py_run.
  unfold load_config, extract_config. rewrite Hcfg. py_run. done.
Qed.

(** ** Runs that fail *)

(** The texts of the [ERROR] records of a log. *)
Definition error_records (l : list (level * string)) : list string :=
  omap (λ x, match x.1 with ERROR => Some x.2 | _ => None end) l.

Lemma failed_fetch_stores_nothing (W : World) (G : Globals) (b : string)
      (e : exception) (s : State) :
  w_sftp_get W b = FetchFails e → cache (fetch_one W G s b) = cache s.
Proof.
  intros Hb. cbn. unfold store. rewrite Hb. by destruct (cache s).
Qed.

(** C6 as the code has it.  Let the targets be [pre], then [b], then
    [post], where the fetches of [pre] return and the fetch of [b] raises
    [e].  The loop stops there: the calls of [sftp.get] are those for [pre]
    and [b], in this order, and none for [post]; at that moment the cache
    directory holds what it held before plus what the targets of [pre]
    stored.  The handler then logs one error, removes the cache and exits
    with status 1.  The error names [b] when [e] is [SFTPNoSuchFile] or
    [SFTPNoSuchPath]; for any other exception it is the text of [e]. *)
Theorem retrieval_stops_at_first_failure (W : World) (G : Globals)
  (pre post : list string) (b : string) (e : exception) (s : State)
  (c : gmap string string) :
  data G = (pre ++ b :: post)%list →
  w_connect_error W = None → w_session_error W = None →
  Forall (fetch_ok W) pre → w_sftp_get W b = FetchFails e →
  cache s = Some c →
  let loop := for_info_in W G (data G) (connected G s) in
  let r := retrieve W G s in
  loop.2 = Raise (Exc e) ∧
  sftp_gets loop.1 = (sftp_gets s ++ pre ++ [b])%list ∧
  cache loop.1 = Some (fold_left (store W G) pre c) ∧
  r.2 = Raise (SystemExit 1) ∧
  sftp_gets r.1 = sftp_gets loop.1 ∧
  cache r.1 = None ∧
  cleanups r.1 = S (cleanups s) ∧
  log r.1 = (log loop.1 ++ [(ERROR, retrieval_error b e);
                            (INFO, "Clearing cache")])%list ∧
  (e = SFTPNoSuchFile ∨ e = SFTPNoSuchPath →
   contains b (retrieval_error b e) = true) ∧
  (e ≠ SFTPNoSuchFile → e ≠ SFTPNoSuchPath →
   retrieval_error b e = "Could not finish data retrieval: " +:+ exn_str e).
Proof.
  intros Hd Hc Hs Hok Hb Hcache loop r. subst loop r.
  rewrite (retrieve_fails W G pre post b e s) by (done || by rewrite Hcache).
  rewrite Hd, (for_info_in_fails W G pre post b e) by done.
  cbn [fst snd].
  split_and!; try done.
  - cbn. rewrite fetched_sftp_gets. cbn. by rewrite <-app_assoc.
  - rewrite (failed_fetch_stores_nothing W G b e) by done.
    rewrite fetched_cache. cbn. by rewrite Hcache.
  - cbn. by destruct (fetched_unchanged W G pre (connected G s)) as (_ & -> & _).
  - cbn. by rewrite <-app_assoc.
  - intros [-> | ->]; apply contains_quoted.
  - intros H1 H2. by destruct e.
Qed.

(** A run whose second target is missing on the server. *)
Definition world_missing_target : World :=
  mkWorld "/home/u" "/opt/sb" false (Some "/backups") None
    (ConfigObject (Some "mc") (Some ("host", "22"))
                  (Some ["world"; "plugins"; "logs"]))
    None None
    (λ t, if decide (t = "plugins") then FetchFails SFTPNoSuchFile
          else Fetched ("<" +:+ t +:+ ">"))
    (λ _, 0) "ARCHIVE" (mkDatetime 2025 1 1 12 0 7) None ∅.

Lemma retrieval_stops_at_first_failure_witness :
  let G := mkGlobals "/home/u/cache" (PyInt 10) "mc" "host" "22"
                     ["world"; "plugins"; "logs"] in
  let s := started (initial_state world_missing_target) in
  (retrieve world_missing_target G s).2 = Raise (SystemExit 1) ∧
  sftp_gets (retrieve world_missing_target G s).1 = ["world"; "plugins"].
Proof.
  intros G s.
  pose proof (retrieval_stops_at_first_failure world_missing_target G
                ["world"] ["logs"] "plugins" SFTPNoSuchFile s ∅
                eq_refl eq_refl eq_refl) as H.
  destruct H as (_ & H2 & _ & H4 & H5 & _).
  - constructor; [by eexists|constructor].
  - reflexivity.
  - reflexivity.
  - split; [exact H4|]. rewrite H5. exact H2.
Defined.

(** A run whose second target fails with a transfer error that is not a
    missing file or path. *)
Definition world_transfer_error : World :=
  mkWorld "/home/u" "/opt/sb" false (Some "/backups") None
    (ConfigObject (Some "mc") (Some ("host", "22"))
                  (Some ["world"; "plugins"; "logs"]))
    None None
    (λ t, if decide (t = "plugins") then FetchFails (OtherError "Connection lost")
          else Fetched ("<" +:+ t +:+ ">"))
    (λ _, 0) "ARCHIVE" (mkDatetime 2025 1 1 12 0 7) None ∅.

(** C6 fails as stated: when the fetch of [plugins] raises an exception
    other than the two not-found ones, the run stops and exits with 1, but
    its only error record is the text of the exception, which does not
    name [plugins]. *)
Lemma transfer_error_does_not_name_target :
  let r := run world_transfer_error in
  r.2 = Raise (SystemExit 1) ∧
  sftp_gets r.1 = ["world"; "plugins"] ∧
  error_records (log r.1) = ["Could not finish data retrieval: Connection lost"] ∧
  Forall (λ m, contains "plugins" m = false) (error_records (log r.1)).
Proof. vm_compute. repeat split. by repeat constructor. Qed.

(** Configurations that lines 108 to 121 do not get through. *)
Definition config_unusable (c : config_file) : Prop :=
  match c with
  | ConfigMissing | ConfigMalformed => True
  | ConfigObject name sftp targets =>
      name = None ∨ sftp = None ∨ targets = None
  end.

(** C7 as the code has it.  When the configuration cannot be loaded, the
    cache directory exists already: line 91 has created it (or found it)
    before the configuration is read.  The run ends with exit status 1
    without a call of [cleanup]. *)
Theorem config_failure_after_cache_creation (W : World) :
  config_unusable (w_config W) →
  let r := run W in
  exit_status r.2 = 1 ∧
  cleanups r.1 = 0%nat ∧
  cache r.1 = Some (default ∅ (w_cache0 W)).
Proof.
  intros Hcfg r. subst r.
  unfold run, script, startup, os_makedirs_exist_ok, parse_retries,
    load_config, extract_config, subscript.
  py_run. destruct (truthy (w_arg_retries W)); py_run.
  1: destruct (py_int _); py_run; [|done].
  all: destruct (w_config W) as [| |[name|] [sftp|] [targets|]]; py_run;
    try done.
  all: cbn in Hcfg; by destruct Hcfg as [?|[?|?]].
Qed.

(** A run that finds neither a cache directory nor [config.json]. *)
Definition world_without_config : World :=
  mkWorld "/home/u" "/opt/sb" false (Some "/backups") None ConfigMissing
    None None (λ t, Fetched t) (λ _, 0) "ARCHIVE"
    (mkDatetime 2025 1 1 12 0 7) None ∅.

Lemma config_failure_after_cache_creation_witness :
  exit_status (run world_without_config).2 = 1 ∧
  cleanups (run world_without_config).1 = 0%nat.
Proof.
  destruct (config_failure_after_cache_creation world_without_config)
    as (H1 & H2 & _).
  - exact I.
  - split; [exact H1 | exact H2].
Defined.

(** C7 fails as stated: the run that finds no [config.json] ends with the
    cache directory in place, which was not there before the run, and
    nothing has removed it. *)
Lemma missing_config_leaves_cache_directory :
  w_cache0 world_without_config = None ∧
  cache (run world_without_config).1 = Some ∅ ∧
  error_records (log (run world_without_config).1)
    = ["config.json file not found"] ∧
  cleanups (run world_without_config).1 = 0%nat.
Proof. vm_compute. done. Qed.

(** A run whose archiver returns a non-zero status. *)
Definition world_archiver_fails : World :=
  mkWorld "/home/u" "/opt/sb" false (Some "/backups") None
    (ConfigObject (Some "mc") (Some ("host", "22")) (Some ["world"]))
    None None (λ t, Fetched ("<" +:+ t +:+ ">"))
    (λ c, match c with "chmod" :: _ => 0 | _ => 2 end) "ARCHIVE"
    (mkDatetime 2025 1 1 12 0 7) None ∅.

(** C1 fails on the code.  When the archiver returns a non-zero status,
    [subprocess.run(..., check=True)] raises [CalledProcessError] outside
    every [try]: the run ends without a call of [cleanup] and the cache
    directory, with the fetched item in it, stays behind. *)
Theorem archive_failure_skips_cleanup :
  let r := run world_archiver_fails in
  r.2 = Raise (Exc CalledProcessError) ∧
  cleanups r.1 = 0%nat ∧
  cache r.1 = Some {[ "/home/u/cache/world" := "<world>" ]}.
Proof. vm_compute. done. Qed.

(** ** Sequencing *)

Lemma bind_return {A B} (m : Py A) (k : A → Py B) (s s' : State) (a : A) :
  m s = (s', Return a) → (m ≫= k) s = k a s'.
Proof. intros H. unfold mbind, Py_bind. by rewrite H. Qed.

Lemma bind_raise {A B} (m : Py A) (k : A → Py B) (s s' : State) (e : exn) :
  m s = (s', Raise e) → (m ≫= k) s = (s', Raise e).
Proof. intros H. unfold mbind, Py_bind. by rewrite H. Qed.

(** ** The archive step after a retrieval that went through *)


(** A run with bare target names whose commands return 0. *)
Definition world_plain : World :=
  mkWorld "/home/u" "/opt/sb" false (Some "/backups") None
    (ConfigObject (Some "mc") (Some ("host", "22")) (Some ["world"; "plugins"]))
    None None (λ t, Fetched ("<" +:+ t +:+ ">")) (λ _, 0) "ARCHIVE"
    (mkDatetime 2025 1 1 12 0 7) None ∅.



(** ** A limit given on the command line *)

Lemma fetched_error_records (W : World) (G : Globals) (ts : list string) :
  ∀ s, error_records (log (fold_left (fetch_one W G) ts s))
       = error_records (log s).
Proof.
  induction ts as [|t ts IH]; intros s; [done|].
  cbn [fold_left]. rewrite IH. cbn. unfold error_records.
  rewrite omap_app. cbn. by rewrite app_nil_r.
Qed.


(** The run of [world_with_collision], now started with [--retries 5]. *)
Definition world_with_flag : World :=
  mkWorld "/home/u" "/opt/sb" false (Some "/backups") (Some "5")
    (ConfigObject (Some "mc") (Some ("host", "22")) (Some ["world"; "plugins"]))
    None None (λ t, Fetched ("<" +:+ t +:+ ">")) (λ _, 0) "ARCHIVE"
    (mkDatetime 2025 1 1 12 0 7) None
    {[ "/backups/mc-01.01.25-1200.7z" := "old" ]}.

